(** * A Modbus gateway for a Mennekes charging station: main.py

    The program binds HTTP routes to handlers that read and write the
    registers of the charging station through one [minimalmodbus.Instrument].
    The instrument (serial link and device) is outside the program: it is a
    parameter of the development, a function from a method call and the
    state of the link and device to an outcome and a new state.  Every call
    that reaches the instrument is recorded, in order, so that what a
    handler asks of the device can be stated. *)

From Stdlib Require Import ZArith List String PrimFloat Bool Lia.
Import ListNotations.
Open Scope string_scope.
Open Scope list_scope.
Open Scope Z_scope.

(** ** Python values and exceptions *)

(** What the instrument hands back and what a response dict holds. *)
Inductive value : Type :=
| VNone
| VInt (n : Z)
| VFloat (x : float)
| VStr (s : string).

(** The subclasses of [minimalmodbus.ModbusException]. *)
Inductive fault : Type :=
| MasterReportedException
| NoResponseError
| InvalidResponseError
| LocalEchoError
| SlaveReportedException
| SlaveDeviceBusyError
| NegativeAcknowledgeError
| IllegalRequestError.

Inductive exception : Type :=
| ModbusException (subtype : fault) (message : string)
| HTTPException (status_code : Z) (detail : string)
| OtherException (class_name : string) (message : string).

(** [isinstance(e, minimalmodbus.ModbusException)] *)
Definition is_ModbusException (e : exception) : bool :=
  match e with
  | ModbusException _ _ => true
  | _ => false
  end.

(** [str(e)] *)
Definition str (e : exception) : string :=
  match e with
  | ModbusException _ message => message
  | HTTPException _ detail => detail
  | OtherException _ message => message
  end.

Inductive result (A : Type) : Type :=
| Return (a : A)
| Raise (e : exception).
Arguments Return {A} a.
Arguments Raise {A} e.

(** ** The instrument *)

(** The methods of [instrument] that main.py calls, with their arguments. *)
Inductive call : Type :=
| Instrument_read_register (address : Z)
| Instrument_read_long (address : Z) (number_of_registers : Z)
| Instrument_read_string (address : Z) (length : Z)
| Instrument_read_float (address : Z)
| Instrument_write_register (address : Z) (value : Z)
| Instrument_write_float (address : Z) (value : float).

(** A response body: a dict, keys in insertion order. *)
Definition response : Type := list (string * value).

(** The request bodies. [None] is an absent field. *)
Record Configuration : Type := Build_Configuration {
  external_charging_current_limitation : option float
}.

Record Functions : Type := Build_Functions {
  master_heartbeat : option Z;
  solar_charge_mode : option Z;
  req_phase_usage : option Z;
  charging_release : option Z;
  lockmode : option Z
}.

(** The GET routes of [app]. *)
Inductive route : Type :=
| GET_version_info
| GET_status
| GET_configuration
| GET_output_measurements
| GET_charging_session
| GET_functions
| GET_diagnostic.

Declare Scope py_scope.
Delimit Scope py_scope with py.

Section Gateway.

(** The state of the serial link and of the device behind it. *)
Variable W : Type.

(** [instrument]: one request-response exchange. *)
Variable instrument : call -> W -> result value * W.

(** The state a handler runs in: the link and device, and the calls made
    on the instrument so far, oldest first. *)
Record state : Type := St {
  world : W;
  issued : list call
}.

(** Python code that may raise: a result and the state left behind, which
    is kept when an exception unwinds. *)
Definition M (A : Type) : Type := state -> result A * state.

Definition ret {A : Type} (a : A) : M A :=
  fun st => (Return a, st).

Definition raise {A : Type} (e : exception) : M A :=
  fun st => (Raise e, st).

Definition bind {A B : Type} (m : M A) (k : A -> M B) : M B :=
  fun st =>
    match m st with
    | (Return a, st') => k a st'
    | (Raise e, st') => (Raise e, st')
    end.

(** [try: body / except C as e: handler e], [caught] deciding
    [isinstance(e, C)]. *)
Definition try_except {A : Type} (body : M A) (caught : exception -> bool)
           (handler : exception -> M A) : M A :=
  fun st =>
    match body st with
    | (Return a, st') => (Return a, st')
    | (Raise e, st') => if caught e then handler e st' else (Raise e, st')
    end.

(** A method call on [instrument]. *)
Definition instrument_call (c : call) : M value :=
  fun st =>
    let (o, w') := instrument c (world st) in
    (o, St w' (issued st ++ [c])).

Notation "x <- m ;; k" := (bind m (fun x => k))
  (at level 61, m at next level, right associativity) : py_scope.
Notation "m ;;; k" := (bind m (fun _ => k))
  (at level 61, right associativity) : py_scope.
Local Open Scope py_scope.

(** *** The helpers *)

Definition read_register (address : Z) (number_of_registers : option Z)
  : M value :=
  let number_of_registers :=
    match number_of_registers with
    | Some n => n
    | None => 1
    end in
  if number_of_registers =? 1 then
    try_except
      (instrument_call (Instrument_read_register address))
      is_ModbusException
      (fun e => raise (HTTPException 500 (str e)))
  else
    try_except
      (instrument_call (Instrument_read_long address number_of_registers))
      is_ModbusException
      (fun e => raise (HTTPException 500 (str e))).

Definition read_string (address : Z) (length : Z) : M value :=
  try_except
    (instrument_call (Instrument_read_string address length))
    is_ModbusException
    (fun e => raise (HTTPException 500 (str e))).

Definition read_float (address : Z) : M value :=
  try_except
    (instrument_call (Instrument_read_float address))
    is_ModbusException
    (fun e => raise (HTTPException 500 (str e))).

Definition write_register (address : Z) (value : Z) : M unit :=
  try_except
    (instrument_call (Instrument_write_register address value) ;;; ret tt)
    is_ModbusException
    (fun e => raise (HTTPException 500 (str e))).

Definition write_float (address : Z) (value : float) : M unit :=
  try_except
    (instrument_call (Instrument_write_float address value) ;;; ret tt)
    is_ModbusException
    (fun e => raise (HTTPException 500 (str e))).

(** *** The handlers *)

Definition get_version_info : M response :=
  layout_version <- read_register 0x0000 None ;;
  firmware_version <- read_string 0x0001 8 ;;
  serial_number <- read_string 0x0009 8 ;;
  hw_version <- read_register 0x0011 None ;;
  product_id <- read_register 0x0012 None ;;
  ret [ ("layout_version", layout_version);
        ("firmware_version", firmware_version);
        ("serial_number", serial_number);
        ("hw_version", hw_version);
        ("product_id", product_id) ].

Definition get_status : M response :=
  evse_state <- read_register 0x0100 None ;;
  external_charging_release_state <- read_register 0x0101 None ;;
  external_downgrading_state <- read_register 0x0102 None ;;
  phase_rotation <- read_register 0x0103 None ;;
  bootup_token <- read_register 0x0104 (Some 2) ;;
  ret [ ("evse_state", evse_state);
        ("external_charging_release_state", external_charging_release_state);
        ("external_downgrading_state", external_downgrading_state);
        ("phase_rotation", phase_rotation);
        ("bootup_token", bootup_token) ].

Definition get_configuration : M response :=
  external_downgrading_current <- read_float 0x0300 ;;
  external_charging_current_limitation <- read_float 0x0302 ;;
  max_current_evse_group <- read_float 0x0304 ;;
  max_current_evse <- read_float 0x0306 ;;
  selective_phase_switching_option <- read_register 0x030A None ;;
  ret [ ("external_downgrading_current", external_downgrading_current);
        ("external_charging_current_limitation",
         external_charging_current_limitation);
        ("max_current_evse_group", max_current_evse_group);
        ("max_current_evse", max_current_evse);
        ("selective_phase_switching_option",
         selective_phase_switching_option) ].

Definition set_configuration (config : Configuration) : M response :=
  match external_charging_current_limitation config with
  | Some limitation => write_float 0x0302 limitation
  | None => ret tt
  end ;;;
  ret [ ("status", VStr "Configuration updated") ].

Definition get_output_measurements : M response :=
  current_l1 <- read_float 0x0500 ;;
  current_l2 <- read_float 0x0502 ;;
  current_l3 <- read_float 0x0504 ;;
  voltage_l1 <- read_float 0x0506 ;;
  voltage_l2 <- read_float 0x0508 ;;
  voltage_l3 <- read_float 0x050A ;;
  power_l1 <- read_float 0x050C ;;
  power_l2 <- read_float 0x050E ;;
  power_l3 <- read_float 0x0510 ;;
  power_overall <- read_float 0x0512 ;;
  ret [ ("current_l1", current_l1);
        ("current_l2", current_l2);
        ("current_l3", current_l3);
        ("voltage_l1", voltage_l1);
        ("voltage_l2", voltage_l2);
        ("voltage_l3", voltage_l3);
        ("power_l1", power_l1);
        ("power_l2", power_l2);
        ("power_l3", power_l3);
        ("power_overall", power_overall) ].

Definition get_charging_session : M response :=
  max_session_charging_current <- read_float 0x0B00 ;;
  session_charging_energy <- read_float 0x0B02 ;;
  session_duration <- read_register 0x0B04 (Some 2) ;;
  ret [ ("max_session_charging_current", max_session_charging_current);
        ("session_charging_energy", session_charging_energy);
        ("session_duration", session_duration) ].

Definition get_functions : M response :=
  solar_charge_mode <- read_register 0x0D03 None ;;
  req_phase_usage <- read_register 0x0D04 None ;;
  charging_release <- read_register 0x0D05 None ;;
  lockmode <- read_register 0x0D06 None ;;
  ret [ ("solar_charge_mode", solar_charge_mode);
        ("req_phase_usage", req_phase_usage);
        ("charging_release", charging_release);
        ("lockmode", lockmode) ].

Definition set_functions (func : Functions) : M response :=
  match master_heartbeat func with
  | Some v => write_register 0x0D00 v
  | None => ret tt
  end ;;;
  match solar_charge_mode func with
  | Some v => write_register 0x0D03 v
  | None => ret tt
  end ;;;
  match req_phase_usage func with
  | Some v => write_register 0x0D04 v
  | None => ret tt
  end ;;;
  match charging_release func with
  | Some v => write_register 0x0D05 v
  | None => ret tt
  end ;;;
  match lockmode func with
  | Some v => write_register 0x0D06 v
  | None => ret tt
  end ;;;
  ret [ ("status", VStr "Functions updated") ].

Definition get_diagnostic : M response :=
  last_error_code <- read_register 0x0E00 (Some 2) ;;
  ret [ ("last_error_code", last_error_code) ].

(** [@app.get(...)]: the handler bound to each GET route. *)
Definition app_get (r : route) : M response :=
  match r with
  | GET_version_info => get_version_info
  | GET_status => get_status
  | GET_configuration => get_configuration
  | GET_output_measurements => get_output_measurements
  | GET_charging_session => get_charging_session
  | GET_functions => get_functions
  | GET_diagnostic => get_diagnostic
  end.

End Gateway.

Arguments St {W} world issued.
Arguments world {W} s.
Arguments issued {W} s.
Arguments ret {W A} a st.
Arguments raise {W A} e st.
Arguments bind {W A B} m k st.
Arguments try_except {W A} body caught handler st.
Arguments instrument_call {W} instrument c st.
Arguments read_register {W} instrument address number_of_registers st.
Arguments read_string {W} instrument address length st.
Arguments read_float {W} instrument address st.
Arguments write_register {W} instrument address value st.
Arguments write_float {W} instrument address value st.
Arguments get_version_info {W} instrument st.
Arguments get_status {W} instrument st.
Arguments get_configuration {W} instrument st.
Arguments set_configuration {W} instrument config st.
Arguments get_output_measurements {W} instrument st.
Arguments get_charging_session {W} instrument st.
Arguments get_functions {W} instrument st.
Arguments set_functions {W} instrument func st.
Arguments get_diagnostic {W} instrument st.
Arguments app_get {W} instrument r st.

Notation "x <- m ;; k" := (bind m (fun x => k))
  (at level 61, m at next level, right associativity) : py_scope.
Notation "m ;;; k" := (bind m (fun _ => k))
  (at level 61, right associativity) : py_scope.
Open Scope py_scope.

(** ** What the handlers are specified against *)

(** The register map of each GET route as the specification lists it (its
    read-only field maps): field name, and the instrument call that fills
    it, in field order.  [app_get_exchanges] below shows that the handlers
    follow it. *)
Definition field_map (r : route) : list (string * call) :=
  match r with
  | GET_version_info =>
      [ ("layout_version", Instrument_read_register 0x0000);
        ("firmware_version", Instrument_read_string 0x0001 8);
        ("serial_number", Instrument_read_string 0x0009 8);
        ("hw_version", Instrument_read_register 0x0011);
        ("product_id", Instrument_read_register 0x0012) ]
  | GET_status =>
      [ ("evse_state", Instrument_read_register 0x0100);
        ("external_charging_release_state", Instrument_read_register 0x0101);
        ("external_downgrading_state", Instrument_read_register 0x0102);
        ("phase_rotation", Instrument_read_register 0x0103);
        ("bootup_token", Instrument_read_long 0x0104 2) ]
  | GET_configuration =>
      [ ("external_downgrading_current", Instrument_read_float 0x0300);
        ("external_charging_current_limitation", Instrument_read_float 0x0302);
        ("max_current_evse_group", Instrument_read_float 0x0304);
        ("max_current_evse", Instrument_read_float 0x0306);
        ("selective_phase_switching_option", Instrument_read_register 0x030A) ]
  | GET_output_measurements =>
      [ ("current_l1", Instrument_read_float 0x0500);
        ("current_l2", Instrument_read_float 0x0502);
        ("current_l3", Instrument_read_float 0x0504);
        ("voltage_l1", Instrument_read_float 0x0506);
        ("voltage_l2", Instrument_read_float 0x0508);
        ("voltage_l3", Instrument_read_float 0x050A);
        ("power_l1", Instrument_read_float 0x050C);
        ("power_l2", Instrument_read_float 0x050E);
        ("power_l3", Instrument_read_float 0x0510);
        ("power_overall", Instrument_read_float 0x0512) ]
  | GET_charging_session =>
      [ ("max_session_charging_current", Instrument_read_float 0x0B00);
        ("session_charging_energy", Instrument_read_float 0x0B02);
        ("session_duration", Instrument_read_long 0x0B04 2) ]
  | GET_functions =>
      [ ("solar_charge_mode", Instrument_read_register 0x0D03);
        ("req_phase_usage", Instrument_read_register 0x0D04);
        ("charging_release", Instrument_read_register 0x0D05);
        ("lockmode", Instrument_read_register 0x0D06) ]
  | GET_diagnostic =>
      [ ("last_error_code", Instrument_read_long 0x0E00 2) ]
  end.

(** The write a field of a partial update asks for: none when absent. *)
Definition present {A : Type} (write : A -> call) (field : option A)
  : list call :=
  match field with
  | Some v => [write v]
  | None => []
  end.

(** The writes a functions payload asks for, in the field order the
    specification declares.  [set_functions_exchanges] below shows that the
    handler follows it. *)
Definition functions_writes (func : Functions) : list call :=
  present (Instrument_write_register 0x0D00) (master_heartbeat func) ++
  present (Instrument_write_register 0x0D03) (solar_charge_mode func) ++
  present (Instrument_write_register 0x0D04) (req_phase_usage func) ++
  present (Instrument_write_register 0x0D05) (charging_release func) ++
  present (Instrument_write_register 0x0D06) (lockmode func).

(** The writes a configuration payload asks for. *)
Definition configuration_writes (config : Configuration) : list call :=
  present (Instrument_write_float 0x0302)
          (external_charging_current_limitation config).

(** What a helper makes of the outcome of its instrument call. *)
Definition surfaced {A : Type} (o : result A) : result A :=
  match o with
  | Return a => Return a
  | Raise e =>
      if is_ModbusException e then Raise (HTTPException 500 (str e))
      else Raise e
  end.

Section Exchanges.

Variable W : Type.
Variable instrument : call -> W -> result value * W.

(** The instrument serves the calls [cs] one after the other from [w]
    without raising: the values it returns and the state it ends in. *)
Fixpoint served (cs : list call) (w : W) : option (list value * W) :=
  match cs with
  | [] => Some ([], w)
  | c :: cs' =>
      match instrument c w with
      | (Return v, w') =>
          match served cs' w' with
          | Some (vs, w'') => Some (v :: vs, w'')
          | None => None
          end
      | (Raise _, _) => None
      end
  end.

(** One guarded instrument call, as every helper makes it. *)
Definition exchange (c : call) : M W value :=
  fun st =>
    let (o, w') := instrument c (world st) in
    (surfaced o, St w' (issued st ++ [c])).

(** The calls [cs] in order, stopping at the first that raises. *)
Fixpoint exchanges (cs : list call) : M W (list value) :=
  match cs with
  | [] => ret []
  | c :: cs' =>
      v <- exchange c ;;
      vs <- exchanges cs' ;;
      ret (v :: vs)
  end.

(** The helper [m] makes the one instrument call [c] and, when that call
    raises a [ModbusException] of whatever subclass, raises
    [HTTPException(status_code=500, detail=<its message>)] in its place,
    leaving the link as the failed exchange left it. *)
Definition surfaces_fault {A : Type} (m : M W A) (c : call) : Prop :=
  forall (subtype : fault) (message : string) (w w' : W) (log : list call),
    instrument c w = (Raise (ModbusException subtype message), w') ->
    m (St w log)
    = (Raise (HTTPException 500 message), St w' (log ++ [c])).

End Exchanges.

Arguments served {W} instrument cs w.
Arguments exchange {W} instrument c st.
Arguments exchanges {W} instrument cs st.
Arguments surfaces_fault {W} instrument {A} m c.

(** ** Device doubles *)

(** A double of the instrument whose state counts the exchanges served: it
    answers a call [c] with [reply c], except that the exchange numbered
    [fail_at] (from 0) raises [e]. *)
Definition double (reply : call -> value) (fail_at : option nat)
           (e : exception) (c : call) (n : nat) : result value * nat :=
  match fail_at with
  | Some k => if Nat.eqb n k then (Raise e, S n) else (Return (reply c), S n)
  | None => (Return (reply c), S n)
  end.

(** The registers of the status scenario: 0x0100 holds 3, 0x0101 holds 1,
    0x0102 holds 0, 0x0103 holds 1, and the long at 0x0104 is 123456. *)
Definition status_registers (c : call) : value :=
  match c with
  | Instrument_read_register address =>
      if address =? 0x0100 then VInt 3
      else if address =? 0x0101 then VInt 1
      else if address =? 0x0102 then VInt 0
      else if address =? 0x0103 then VInt 1
      else VInt 0
  | Instrument_read_long address number_of_registers =>
      if (address =? 0x0104) && (number_of_registers =? 2) then VInt 123456
      else VInt 0
  | Instrument_read_string _ _ => VStr ""
  | Instrument_read_float _ => VFloat 0
  | Instrument_write_register _ _ => VNone
  | Instrument_write_float _ _ => VNone
  end.

Definition no_answer : exception :=
  ModbusException NoResponseError
                  "No communication with the instrument (no answer)".

(** A device double that keeps what is written to it: its state gives the
    value held at each register address, a read hands back the value at its
    address, a write replaces it. *)
Definition memory_device (c : call) (regs : Z -> value)
  : result value * (Z -> value) :=
  match c with
  | Instrument_read_register address => (Return (regs address), regs)
  | Instrument_read_long address _ => (Return (regs address), regs)
  | Instrument_read_string address _ => (Return (regs address), regs)
  | Instrument_read_float address => (Return (regs address), regs)
  | Instrument_write_register address v =>
      (Return VNone, fun a => if a =? address then VInt v else regs a)
  | Instrument_write_float address x =>
      (Return VNone, fun a => if a =? address then VFloat x else regs a)
  end.

(** The registers of a version scenario. *)
Definition version_registers (address : Z) : value :=
  if address =? 0x0001 then VStr "5.22"
  else if address =? 0x0009 then VStr "1384202.10095"
  else VInt address.

(** An exception that is not a [ModbusException], as the instrument raises
    for an argument it refuses. *)
Definition value_error : exception :=
  OtherException "ValueError" "The input value is too large".

(** ** Kinds of calls and of outcomes *)

(** The calls that read the device; the others write to it. *)
Definition is_read (c : call) : bool :=
  match c with
  | Instrument_read_register _ => true
  | Instrument_read_long _ _ => true
  | Instrument_read_string _ _ => true
  | Instrument_read_float _ => true
  | Instrument_write_register _ _ => false
  | Instrument_write_float _ _ => false
  end.

Definition is_write (c : call) : bool := negb (is_read c).

Section Outcomes.

Variable W : Type.
Variable instrument : call -> W -> result value * W.

(** The helper [m] makes the one instrument call [c] and lets an exception
    that is not a [ModbusException] through as it is. *)
Definition passes_exception {A : Type} (m : M W A) (c : call) : Prop :=
  forall (e : exception) (w w' : W) (log : list call),
    is_ModbusException e = false ->
    instrument c w = (Raise e, w') ->
    m (St w log) = (Raise e, St w' (log ++ [c])).

(** The helper [m] makes the one instrument call [c] and returns [f v] for
    the value [v] the instrument returns. *)
Definition returns_of {A : Type} (f : value -> A) (m : M W A) (c : call)
  : Prop :=
  forall (v : value) (w w' : W) (log : list call),
    instrument c w = (Return v, w') ->
    m (St w log) = (Return (f v), St w' (log ++ [c])).

End Outcomes.

Arguments passes_exception {W} instrument {A} m c.
Arguments returns_of {W} instrument {A} f m c.

(** ** Lemmas on the helpers *)

Section Proofs.

Variable W : Type.
Variable instrument : call -> W -> result value * W.

Lemma bind_ext {A B : Type} (m m' : M W A) (k k' : A -> M W B)
      (st : state W) :
  m st = m' st ->
  (forall a st', k a st' = k' a st') ->
  (x <- m ;; k x) st = (x <- m' ;; k' x) st.
Proof.
  intros Hm Hk. unfold bind. rewrite Hm.
  destruct (m' st) as [[a | e] st']; [apply Hk | reflexivity].
Qed.

Lemma bind_assoc {A B C : Type} (m : M W A) (k : A -> M W B)
      (h : B -> M W C) (st : state W) :
  (y <- (x <- m ;; k x) ;; h y) st = (x <- m ;; y <- k x ;; h y) st.
Proof.
  unfold bind. destruct (m st) as [[a | e] st']; reflexivity.
Qed.

Lemma guarded_call_exchange (c : call) (st : state W) :
  try_except (instrument_call instrument c) is_ModbusException
             (fun e => raise (HTTPException 500 (str e))) st
  = exchange instrument c st.
Proof.
  unfold try_except, instrument_call, exchange, raise.
  destruct (instrument c (world st)) as [[v | e] w']; cbn; [reflexivity |].
  destruct (is_ModbusException e); reflexivity.
Qed.

Lemma guarded_write_exchange (c : call) (st : state W) :
  try_except (instrument_call instrument c ;;; ret tt) is_ModbusException
             (fun e => raise (HTTPException 500 (str e))) st
  = (exchange instrument c ;;; ret tt) st.
Proof.
  unfold try_except, bind, instrument_call, exchange, raise, ret.
  destruct (instrument c (world st)) as [[v | e] w']; cbn; [reflexivity |].
  destruct (is_ModbusException e); reflexivity.
Qed.

Lemma read_register_exchange (address : Z) (n : option Z) (st : state W) :
  read_register instrument address n st
  = exchange instrument
      (match n with
       | Some k => if k =? 1 then Instrument_read_register address
                   else Instrument_read_long address k
       | None => Instrument_read_register address
       end) st.
Proof.
  unfold read_register.
  destruct n as [k |]; [destruct (k =? 1) |];
    apply guarded_call_exchange.
Qed.

Lemma read_string_exchange (address length : Z) (st : state W) :
  read_string instrument address length st
  = exchange instrument (Instrument_read_string address length) st.
Proof. apply guarded_call_exchange. Qed.

Lemma read_float_exchange (address : Z) (st : state W) :
  read_float instrument address st
  = exchange instrument (Instrument_read_float address) st.
Proof. apply guarded_call_exchange. Qed.

Lemma write_register_exchange (address v : Z) (st : state W) :
  write_register instrument address v st
  = (exchange instrument (Instrument_write_register address v) ;;; ret tt) st.
Proof. apply guarded_write_exchange. Qed.

Lemma write_float_exchange (address : Z) (x : float) (st : state W) :
  write_float instrument address x st
  = (exchange instrument (Instrument_write_float address x) ;;; ret tt) st.
Proof. apply guarded_write_exchange. Qed.

(** *** A sequence of exchanges *)

Lemma exchanges_cons {B : Type} (c : call) (cs : list call)
      (k : list value -> M W B) (st : state W) :
  (vs <- exchanges instrument (c :: cs) ;; k vs) st
  = (v <- exchange instrument c ;;
     vs <- exchanges instrument cs ;;
     k (v :: vs)) st.
Proof.
  cbn [exchanges]. rewrite bind_assoc.
  apply bind_ext; [reflexivity | intros v st1].
  rewrite bind_assoc. apply bind_ext; reflexivity.
Qed.

Lemma exchanges_served (cs : list call) :
  forall w vs w' log,
    served instrument cs w = Some (vs, w') ->
    exchanges instrument cs (St w log) = (Return vs, St w' (log ++ cs)).
Proof.
  induction cs as [| c cs IH]; intros w vs w' log H; cbn in H.
  - inversion H; subst. cbn. now rewrite app_nil_r.
  - cbn [exchanges]. unfold bind at 1. unfold exchange at 1. cbn [world issued].
    destruct (instrument c w) as [[v | e] w1]; [| discriminate].
    destruct (served instrument cs w1) as [[vs1 w2] |] eqn:E; [| discriminate].
    inversion H; subst. cbn [surfaced].
    unfold bind. rewrite (IH _ _ _ _ E). cbn.
    now rewrite <- app_assoc.
Qed.

Lemma exchanges_fault (pre : list call) :
  forall c post w vs w1 e w2 log,
    served instrument pre w = Some (vs, w1) ->
    instrument c w1 = (Raise e, w2) ->
    exchanges instrument (pre ++ c :: post) (St w log)
    = (surfaced (Raise e), St w2 (log ++ pre ++ [c])).
Proof.
  induction pre as [| p pre IH]; intros c post w vs w1 e w2 log H Hc;
    cbn in H.
  - inversion H; subst. cbn [app exchanges]. unfold bind, exchange.
    cbn [world issued]. rewrite Hc. cbn.
    destruct (is_ModbusException e); reflexivity.
  - cbn [app exchanges]. unfold bind at 1. unfold exchange at 1.
    cbn [world issued].
    destruct (instrument p w) as [[v | e'] w']; [| discriminate].
    destruct (served instrument pre w') as [[vs1 w1'] |] eqn:E;
      [| discriminate].
    inversion H; subst. cbn [surfaced]. unfold bind.
    rewrite (IH c post _ _ _ _ _ _ E Hc). cbn.
    rewrite <- app_assoc. cbn.
    destruct (is_ModbusException e); reflexivity.
Qed.

(** Whatever the instrument does, a sequence of exchanges either returns
    one value per call, having made all the calls, or raises at a call,
    having made the calls up to that one and none after it. *)
Lemma exchanges_shape (cs : list call) :
  forall st,
    match exchanges instrument cs st with
    | (Return vs, st') =>
        List.length vs = List.length cs /\ issued st' = issued st ++ cs
    | (Raise _, st') =>
        exists done c rest,
          cs = done ++ c :: rest /\ issued st' = issued st ++ done ++ [c]
    end.
Proof.
  induction cs as [| c cs IH]; intros st.
  - cbn. split; [reflexivity | now rewrite app_nil_r].
  - cbn [exchanges]. unfold bind at 1. unfold exchange at 1.
    destruct (instrument c (world st)) as [[v | e] w1]; cbn [surfaced].
    + unfold bind.
      specialize (IH (St w1 (issued st ++ [c]))).
      destruct (exchanges instrument cs (St w1 (issued st ++ [c])))
        as [[vs | e] st2]; cbn in *.
      * destruct IH as [Hl Hi]. split; [now rewrite Hl |].
        now rewrite Hi, <- app_assoc.
      * destruct IH as (done & c' & rest & Hcs & Hi).
        exists (c :: done), c', rest. split; [now rewrite Hcs |].
        now rewrite Hi, <- app_assoc.
    + destruct (is_ModbusException e); cbn;
        exists [], c, cs; split; reflexivity.
Qed.

(** *** The handlers as sequences of exchanges *)

Lemma bind_ret {A B : Type} (a : A) (k : A -> M W B) (st : state W) :
  (x <- ret a ;; k x) st = k a st.
Proof. reflexivity. Qed.

Lemma bind_write_register {B : Type} (address v : Z) (k : M W B)
      (st : state W) :
  (write_register instrument address v ;;; k) st
  = (exchange instrument (Instrument_write_register address v) ;;; k) st.
Proof.
  unfold bind at 1. rewrite write_register_exchange.
  unfold bind. destruct (exchange _ _ st) as [[x | e] st']; reflexivity.
Qed.

Lemma bind_write_float {B : Type} (address : Z) (x : float) (k : M W B)
      (st : state W) :
  (write_float instrument address x ;;; k) st
  = (exchange instrument (Instrument_write_float address x) ;;; k) st.
Proof.
  unfold bind at 1. rewrite write_float_exchange.
  unfold bind. destruct (exchange _ _ st) as [[y | e] st']; reflexivity.
Qed.

(** One step of a handler against its register map: the next read of the
    handler is the next exchange of the map. *)
Ltac next_read :=
  rewrite exchanges_cons;
  apply bind_ext;
  [ first [ apply read_register_exchange
          | apply read_string_exchange
          | apply read_float_exchange ]
  | intros ? ? ].

(** Every GET handler makes the calls of its register map, in order, and
    pairs the field names with the values read. *)
Lemma app_get_exchanges (r : route) (st : state W) :
  app_get instrument r st
  = (vs <- exchanges instrument (map snd (field_map r)) ;;
     ret (combine (map fst (field_map r)) vs)) st.
Proof.
  destruct r; cbn [app_get field_map map fst snd];
    unfold get_version_info, get_status, get_configuration,
      get_output_measurements, get_charging_session, get_functions,
      get_diagnostic;
    repeat next_read; reflexivity.
Qed.

Lemma set_functions_exchanges (func : Functions) (st : state W) :
  set_functions instrument func st
  = (exchanges instrument (functions_writes func) ;;;
     ret [("status", VStr "Functions updated")]) st.
Proof.
  unfold set_functions, functions_writes.
  destruct func as [mh scm rpu cr lm]. cbn [master_heartbeat solar_charge_mode req_phase_usage charging_release lockmode].
  revert st.
  destruct mh, scm, rpu, cr, lm; intros st; cbn [present app];
    repeat first
      [ rewrite bind_ret
      | rewrite bind_write_register; rewrite exchanges_cons;
        apply bind_ext; [reflexivity | intros ? ?] ];
    reflexivity.
Qed.

Lemma set_configuration_exchanges (config : Configuration) (st : state W) :
  set_configuration instrument config st
  = (exchanges instrument (configuration_writes config) ;;;
     ret [("status", VStr "Configuration updated")]) st.
Proof.
  unfold set_configuration, configuration_writes.
  destruct config as [[x |]]; cbn [external_charging_current_limitation present].
  - rewrite bind_write_float, exchanges_cons.
    apply bind_ext; [reflexivity | intros ? ?]. reflexivity.
  - reflexivity.
Qed.

End Proofs.

(** ** The properties of the specification *)

Section Properties.

Variable W : Type.
Variable instrument : call -> W -> result value * W.

Lemma exchange_surfaces_fault (c : call) :
  surfaces_fault instrument (exchange instrument c) c.
Proof.
  intros subtype message w w' log H.
  unfold exchange. cbn [world issued]. now rewrite H.
Qed.

Lemma write_surfaces_fault (c : call) :
  surfaces_fault instrument (exchange instrument c ;;; ret tt) c.
Proof.
  intros subtype message w w' log H.
  unfold bind. now rewrite (exchange_surfaces_fault c _ _ _ _ _ H).
Qed.

(** C1: each of the five helpers (read_register, in both of its branches,
    read_string, read_float, write_register, write_float) turns a
    ModbusException raised by its instrument call into
    HTTPException(500, detail = the exception's message): the subclass of
    the exception plays no part in the outcome, and the instrument has been
    called exactly once (the call is not repeated). *)
Theorem helpers_surface_transport_fault :
  (forall address,
      surfaces_fault instrument (read_register instrument address None)
                     (Instrument_read_register address))
  /\ (forall address,
         surfaces_fault instrument (read_register instrument address (Some 1))
                        (Instrument_read_register address))
  /\ (forall address n,
         n <> 1 ->
         surfaces_fault instrument (read_register instrument address (Some n))
                        (Instrument_read_long address n))
  /\ (forall address length,
         surfaces_fault instrument (read_string instrument address length)
                        (Instrument_read_string address length))
  /\ (forall address,
         surfaces_fault instrument (read_float instrument address)
                        (Instrument_read_float address))
  /\ (forall address v,
         surfaces_fault instrument (write_register instrument address v)
                        (Instrument_write_register address v))
  /\ (forall address x,
         surfaces_fault instrument (write_float instrument address x)
                        (Instrument_write_float address x)).
Proof.
  repeat split; intros; intros subtype message w w' log Hc.
  - rewrite read_register_exchange. exact (exchange_surfaces_fault _ subtype message w w' log Hc).
  - rewrite read_register_exchange. exact (exchange_surfaces_fault _ subtype message w w' log Hc).
  - rewrite read_register_exchange.
    destruct (Z.eqb_spec n 1) as [-> | _]; [contradiction |].
    exact (exchange_surfaces_fault _ subtype message w w' log Hc).
  - rewrite read_string_exchange. exact (exchange_surfaces_fault _ subtype message w w' log Hc).
  - rewrite read_float_exchange. exact (exchange_surfaces_fault _ subtype message w w' log Hc).
  - rewrite write_register_exchange. exact (write_surfaces_fault _ subtype message w w' log Hc).
  - rewrite write_float_exchange. exact (write_surfaces_fault _ subtype message w w' log Hc).
Qed.

(** C2: when the instrument serves them, set_functions makes exactly the
    writes of the present fields, one register write each, in the order
    master_heartbeat (0x0D00), solar_charge_mode (0x0D03), req_phase_usage
    (0x0D04), charging_release (0x0D05), lockmode (0x0D06), and answers
    "Functions updated"; whatever the instrument does, the calls made are
    an initial part of that list; a payload with only lockmode asks for one
    write, to 0x0D06. *)
Theorem set_functions_writes_present_fields_in_order :
  (forall func w vs w' log,
      served instrument (functions_writes func) w = Some (vs, w') ->
      set_functions instrument func (St w log)
      = (Return [("status", VStr "Functions updated")],
         St w' (log ++ functions_writes func)))
  /\ (forall func st,
         exists done rest,
           functions_writes func = done ++ rest
           /\ issued (snd (set_functions instrument func st))
              = issued st ++ done)
  /\ (forall v,
         functions_writes (Build_Functions None None None None (Some v))
         = [Instrument_write_register 0x0D06 v]).
Proof.
  split; [| split].
  - intros func w vs w' log H.
    rewrite set_functions_exchanges. unfold bind.
    now rewrite (exchanges_served W instrument _ _ _ _ log H).
  - intros func st. rewrite set_functions_exchanges. unfold bind.
    pose proof (exchanges_shape W instrument (functions_writes func) st) as S.
    destruct (exchanges instrument (functions_writes func) st)
      as [[vs | e] st']; cbn.
    + destruct S as [_ Hi]. exists (functions_writes func), [].
      now rewrite app_nil_r.
    + destruct S as (done & c & rest & Hf & Hi).
      exists (done ++ [c]), rest. now rewrite <- app_assoc.
  - reflexivity.
Qed.

(** C3: in every GET handler, when the reads before some field are served
    and the read of that field raises a ModbusException, the handler raises
    HTTPException(500, the message), and the calls made are the reads up to
    and including the failed one, none after it; and a handler that returns
    a response has made all its reads and returns every field. *)
Theorem read_handler_aborts_at_first_fault :
  (forall r pre name c post w vs w1 subtype message w2 log,
      field_map r = pre ++ (name, c) :: post ->
      served instrument (map snd pre) w = Some (vs, w1) ->
      instrument c w1 = (Raise (ModbusException subtype message), w2) ->
      app_get instrument r (St w log)
      = (Raise (HTTPException 500 message),
         St w2 (log ++ map snd pre ++ [c])))
  /\ (forall r st body st',
         app_get instrument r st = (Return body, st') ->
         map fst body = map fst (field_map r)
         /\ issued st' = issued st ++ map snd (field_map r)).
Proof.
  split.
  - intros r pre name c post w vs w1 subtype message w2 log Hr Hpre Hc.
    rewrite app_get_exchanges, Hr, map_app. cbn [map snd]. unfold bind.
    now rewrite (exchanges_fault W instrument _ c _ _ _ _ _ _ log Hpre Hc).
  - intros r st body st' H.
    rewrite app_get_exchanges in H. unfold bind in H.
    pose proof (exchanges_shape W instrument (map snd (field_map r)) st) as S.
    destruct (exchanges instrument (map snd (field_map r)) st)
      as [[vs | e] st1]; [| discriminate].
    destruct S as [Hl Hi]. inversion H; subst. split; [| exact Hi].
    rewrite length_map in Hl.
    clear - Hl. revert vs Hl.
    generalize (field_map r) as fields.
    induction fields as [| [k c] fields IH]; intros [| v vs] Hl;
      try discriminate; [reflexivity |].
    cbn. f_equal. apply IH. now inversion Hl.
Qed.

(** C4: get_status reads registers 0x0100, 0x0101, 0x0102, 0x0103 and the
    two-register long at 0x0104, in this order and nothing else, and returns
    the values under evse_state, external_charging_release_state,
    external_downgrading_state, phase_rotation, bootup_token. *)
Theorem get_status_reads_and_fields :
  forall w v0 v1 v2 v3 v4 w' log,
    served instrument
           [ Instrument_read_register 0x0100;
             Instrument_read_register 0x0101;
             Instrument_read_register 0x0102;
             Instrument_read_register 0x0103;
             Instrument_read_long 0x0104 2 ] w
    = Some ([v0; v1; v2; v3; v4], w') ->
    get_status instrument (St w log)
    = (Return [ ("evse_state", v0);
                ("external_charging_release_state", v1);
                ("external_downgrading_state", v2);
                ("phase_rotation", v3);
                ("bootup_token", v4) ],
       St w' (log ++ [ Instrument_read_register 0x0100;
                       Instrument_read_register 0x0101;
                       Instrument_read_register 0x0102;
                       Instrument_read_register 0x0103;
                       Instrument_read_long 0x0104 2 ])).
Proof.
  intros w v0 v1 v2 v3 v4 w' log H.
  change (get_status instrument (St w log))
    with (app_get instrument GET_status (St w log)).
  rewrite app_get_exchanges. cbn [field_map map fst snd]. unfold bind.
  now rewrite (exchanges_served W instrument _ _ _ _ log H).
Qed.

(** C5: set_configuration with external_charging_current_limitation present
    makes one call on the instrument, write_float(0x0302, value) with the
    value of the payload, whatever the instrument answers; when that write
    is served, the handler answers "Configuration updated". *)
Theorem set_configuration_writes_limitation :
  forall x,
    (forall st,
        issued (snd (set_configuration instrument
                       (Build_Configuration (Some x)) st))
        = issued st ++ [Instrument_write_float 0x0302 x])
    /\ (forall w v w' log,
           instrument (Instrument_write_float 0x0302 x) w = (Return v, w') ->
           set_configuration instrument (Build_Configuration (Some x))
                             (St w log)
           = (Return [("status", VStr "Configuration updated")],
              St w' (log ++ [Instrument_write_float 0x0302 x]))).
Proof.
  intros x. split.
  - intros st. rewrite set_configuration_exchanges.
    cbn [configuration_writes external_charging_current_limitation present
         exchanges].
    unfold bind, exchange, ret.
    destruct (instrument (Instrument_write_float 0x0302 x) (world st))
      as [[v | e] w']; cbn; [reflexivity |].
    destruct (is_ModbusException e); reflexivity.
  - intros w v w' log H. rewrite set_configuration_exchanges.
    cbn [configuration_writes external_charging_current_limitation present].
    unfold bind.
    rewrite (exchanges_served W instrument _ w [v] w' log); [reflexivity |].
    cbn. now rewrite H.
Qed.

(** C6: with every field absent, set_configuration and set_functions make no
    call on the instrument and answer their acknowledgment. *)
Theorem empty_payload_is_a_no_op :
  forall st,
    set_configuration instrument (Build_Configuration None) st
    = (Return [("status", VStr "Configuration updated")], st)
    /\ set_functions instrument (Build_Functions None None None None None) st
       = (Return [("status", VStr "Functions updated")], st).
Proof.
  intros st. split; reflexivity.
Qed.

(** C7: when the writes of the earlier present fields are served and the
    write of a later field raises a ModbusException, set_functions raises
    HTTPException(500, the message) and nothing else: the calls made are
    the earlier writes and the failed one, with no read and no write after
    it, and the exception does not say which writes went through. *)
Theorem set_functions_partial_write :
  forall func pre c post w vs w1 subtype message w2 log,
    functions_writes func = pre ++ c :: post ->
    served instrument pre w = Some (vs, w1) ->
    instrument c w1 = (Raise (ModbusException subtype message), w2) ->
    set_functions instrument func (St w log)
    = (Raise (HTTPException 500 message), St w2 (log ++ pre ++ [c])).
Proof.
  intros func pre c post w vs w1 subtype message w2 log Hf Hpre Hc.
  rewrite set_functions_exchanges, Hf. unfold bind.
  now rewrite (exchanges_fault W instrument _ c _ _ _ _ _ _ log Hpre Hc).
Qed.

(** C10: read_register with a count other than 1 (0, 3, a negative number)
    calls instrument.read_long with that count and hands back what the
    call gives; with count 1 it calls instrument.read_register; a call
    without a count is a call with count 1. *)
Theorem read_register_count :
  forall address st,
    (forall n,
        n <> 1 ->
        read_register instrument address (Some n) st
        = exchange instrument (Instrument_read_long address n) st)
    /\ read_register instrument address (Some 1) st
       = exchange instrument (Instrument_read_register address) st
    /\ read_register instrument address None st
       = read_register instrument address (Some 1) st.
Proof.
  intros address st. repeat split.
  - intros n Hn. rewrite read_register_exchange.
    destruct (Z.eqb_spec n 1) as [-> | _]; [contradiction | reflexivity].
  - now rewrite read_register_exchange.
Qed.

End Properties.

(** ** The properties on device doubles *)

(** C1 on a double whose first exchange times out: read_float and
    write_register raise HTTPException(500, the timeout's message) after one
    call. *)
Lemma helpers_surface_transport_fault_witness :
  read_float (double status_registers (Some 0%nat) no_answer) 0x0300
             (St 0%nat [])
  = (Raise (HTTPException
              500 "No communication with the instrument (no answer)"),
     St 1%nat [Instrument_read_float 0x0300])
  /\ write_register (double status_registers (Some 0%nat) no_answer)
                    0x0D06 1 (St 0%nat [])
     = (Raise (HTTPException
                 500 "No communication with the instrument (no answer)"),
        St 1%nat [Instrument_write_register 0x0D06 1]).
Proof.
  pose proof (helpers_surface_transport_fault
                nat (double status_registers (Some 0%nat) no_answer))
    as (_ & _ & _ & _ & Hf & Hw & _).
  split; [apply (Hf 0x0300 NoResponseError) | apply (Hw 0x0D06 1 NoResponseError)];
    reflexivity.
Defined.

(** C2 on a double that serves every call: a payload with only lockmode = 1
    makes the single call write_register(0x0D06, 1). *)
Lemma set_functions_writes_present_fields_in_order_witness :
  served (double status_registers None no_answer)
         (functions_writes (Build_Functions None None None None (Some 1)))
         0%nat
  = Some ([VNone], 1%nat)
  /\ set_functions (double status_registers None no_answer)
                   (Build_Functions None None None None (Some 1))
                   (St 0%nat [])
     = (Return [("status", VStr "Functions updated")],
        St 1%nat [Instrument_write_register 0x0D06 1]).
Proof.
  split; [reflexivity |].
  apply (proj1 (set_functions_writes_present_fields_in_order
                  nat (double status_registers None no_answer))
               (Build_Functions None None None None (Some 1))
               0%nat [VNone] 1%nat []).
  reflexivity.
Defined.

(** C3 on a double whose third exchange times out: get_status raises after
    three reads and reads neither 0x0103 nor 0x0104. *)
Lemma read_handler_aborts_at_first_fault_witness :
  served (double status_registers (Some 2%nat) no_answer)
         [Instrument_read_register 0x0100; Instrument_read_register 0x0101]
         0%nat
  = Some ([VInt 3; VInt 1], 2%nat)
  /\ app_get (double status_registers (Some 2%nat) no_answer) GET_status
             (St 0%nat [])
     = (Raise (HTTPException
                 500 "No communication with the instrument (no answer)"),
        St 3%nat [ Instrument_read_register 0x0100;
                   Instrument_read_register 0x0101;
                   Instrument_read_register 0x0102 ]).
Proof.
  split; [reflexivity |].
  apply (proj1 (read_handler_aborts_at_first_fault
                  nat (double status_registers (Some 2%nat) no_answer))
               GET_status
               [ ("evse_state", Instrument_read_register 0x0100);
                 ("external_charging_release_state",
                  Instrument_read_register 0x0101) ]
               "external_downgrading_state"
               (Instrument_read_register 0x0102)
               [ ("phase_rotation", Instrument_read_register 0x0103);
                 ("bootup_token", Instrument_read_long 0x0104 2) ]
               0%nat [VInt 3; VInt 1] 2%nat NoResponseError
               "No communication with the instrument (no answer)"
               3%nat []);
    reflexivity.
Defined.

(** C4 on the double of the status scenario: the response is
    {"evse_state": 3, "external_charging_release_state": 1,
     "external_downgrading_state": 0, "phase_rotation": 1,
     "bootup_token": 123456}. *)
Lemma get_status_reads_and_fields_witness :
  get_status (double status_registers None no_answer) (St 0%nat [])
  = (Return [ ("evse_state", VInt 3);
              ("external_charging_release_state", VInt 1);
              ("external_downgrading_state", VInt 0);
              ("phase_rotation", VInt 1);
              ("bootup_token", VInt 123456) ],
     St 5%nat [ Instrument_read_register 0x0100;
                Instrument_read_register 0x0101;
                Instrument_read_register 0x0102;
                Instrument_read_register 0x0103;
                Instrument_read_long 0x0104 2 ]).
Proof.
  apply (get_status_reads_and_fields
           nat (double status_registers None no_answer)
           0%nat (VInt 3) (VInt 1) (VInt 0) (VInt 1) (VInt 123456) 5%nat []).
  reflexivity.
Defined.

(** C5 on a double that serves every call: the payload
    {"external_charging_current_limitation": 16.0} makes the single call
    write_float(0x0302, 16.0) and gets "Configuration updated". *)
Lemma set_configuration_writes_limitation_witness :
  set_configuration (double status_registers None no_answer)
                    (Build_Configuration (Some 16.0%float)) (St 0%nat [])
  = (Return [("status", VStr "Configuration updated")],
     St 1%nat [Instrument_write_float 0x0302 16.0%float]).
Proof.
  apply (proj2 (set_configuration_writes_limitation
                  nat (double status_registers None no_answer) 16.0%float)
               0%nat VNone 1%nat []).
  reflexivity.
Defined.

(** C7 on a double whose second exchange times out: with master_heartbeat
    and lockmode present, the heartbeat write is made and stays made, the
    lockmode write fails, and the handler raises HTTPException(500). *)
Lemma set_functions_partial_write_witness :
  served (double status_registers (Some 1%nat) no_answer)
         [Instrument_write_register 0x0D00 0x55AA] 0%nat
  = Some ([VNone], 1%nat)
  /\ set_functions (double status_registers (Some 1%nat) no_answer)
                   (Build_Functions (Some 0x55AA) None None None (Some 1))
                   (St 0%nat [])
     = (Raise (HTTPException
                 500 "No communication with the instrument (no answer)"),
        St 2%nat [ Instrument_write_register 0x0D00 0x55AA;
                   Instrument_write_register 0x0D06 1 ]).
Proof.
  split; [reflexivity |].
  apply (set_functions_partial_write
           nat (double status_registers (Some 1%nat) no_answer)
           (Build_Functions (Some 0x55AA) None None None (Some 1))
           [Instrument_write_register 0x0D00 0x55AA]
           (Instrument_write_register 0x0D06 1) []
           0%nat [VNone] 1%nat NoResponseError
           "No communication with the instrument (no answer)" 2%nat []);
    reflexivity.
Defined.

(** C10 on a double that serves every call: counts 0 and 3 reach the
    instrument as read_long calls with these counts. *)
Lemma read_register_count_witness :
  read_register (double status_registers None no_answer) 0x0104 (Some 0)
                (St 0%nat [])
  = (Return (VInt 0), St 1%nat [Instrument_read_long 0x0104 0])
  /\ read_register (double status_registers None no_answer) 0x0104 (Some 3)
                   (St 0%nat [])
     = (Return (VInt 0), St 1%nat [Instrument_read_long 0x0104 3]).
Proof.
  split.
  - rewrite (proj1 (read_register_count
                      nat (double status_registers None no_answer)
                      0x0104 (St 0%nat [])) 0); [reflexivity | discriminate].
  - rewrite (proj1 (read_register_count
                      nat (double status_registers None no_answer)
                      0x0104 (St 0%nat [])) 3); [reflexivity | discriminate].
Defined.

(** ** Further properties of the helpers and handlers *)

Section Further.

Variable W : Type.
Variable instrument : call -> W -> result value * W.

Lemma surfaced_other {A : Type} (e : exception) :
  is_ModbusException e = false -> @surfaced A (Raise e) = Raise e.
Proof. intros H. cbn. now rewrite H. Qed.

Lemma surfaced_raise_not_modbus {A : Type} (o : result A) (e : exception) :
  surfaced o = Raise e -> is_ModbusException e = false.
Proof.
  destruct o as [a | e0]; cbn; [discriminate |].
  destruct (is_ModbusException e0) eqn:E; intros H; inversion H; subst;
    [reflexivity | exact E].
Qed.

Lemma exchange_passes_exception (c : call) :
  passes_exception instrument (exchange instrument c) c.
Proof.
  intros e w w' log He H. unfold exchange. cbn [world issued].
  now rewrite H, surfaced_other.
Qed.

Lemma write_passes_exception (c : call) :
  passes_exception instrument (exchange instrument c ;;; ret tt) c.
Proof.
  intros e w w' log He H. unfold bind.
  now rewrite (exchange_passes_exception c e w w' log He H).
Qed.

Lemma exchange_returns (c : call) :
  returns_of instrument (fun v => v) (exchange instrument c) c.
Proof.
  intros v w w' log H. unfold exchange. cbn [world issued]. now rewrite H.
Qed.

Lemma write_returns (c : call) :
  returns_of instrument (fun _ => tt) (exchange instrument c ;;; ret tt) c.
Proof.
  intros v w w' log H. unfold bind.
  now rewrite (exchange_returns c v w w' log H).
Qed.

Lemma exchanges_raise_not_modbus (cs : list call) :
  forall st e st',
    exchanges instrument cs st = (Raise e, st') ->
    is_ModbusException e = false.
Proof.
  induction cs as [| c cs IH]; intros st e st' H; [discriminate |].
  cbn [exchanges] in H. unfold bind at 1 in H. unfold exchange at 1 in H.
  destruct (instrument c (world st)) as [o w1].
  destruct (surfaced o) as [v | e0] eqn:Eo.
  - unfold bind in H.
    destruct (exchanges instrument cs (St w1 (issued st ++ [c])))
      as [[vs | e1] st1] eqn:E; [discriminate |].
    inversion H; subst. exact (IH _ _ _ E).
  - inversion H; subst. exact (surfaced_raise_not_modbus _ _ Eo).
Qed.

(** The calls a sequence of exchanges makes are an initial part of it. *)
Lemma exchanges_prefix (cs : list call) (st : state W) :
  exists done rest,
    cs = done ++ rest
    /\ issued (snd (exchanges instrument cs st)) = issued st ++ done.
Proof.
  pose proof (exchanges_shape W instrument cs st) as S.
  destruct (exchanges instrument cs st) as [[vs | e] st']; cbn.
  - destruct S as [_ Hi]. exists cs, []. now rewrite app_nil_r.
  - destruct S as (done & c & rest & Hcs & Hi).
    exists (done ++ [c]), rest. now rewrite <- app_assoc.
Qed.

Lemma bind_ret_state {A B : Type} (m : M W A) (f : A -> B) (st : state W) :
  snd ((x <- m ;; ret (f x)) st) = snd (m st).
Proof.
  unfold bind. destruct (m st) as [[a | e] st']; reflexivity.
Qed.

Lemma bind_ret_raise {A B : Type} (m : M W A) (f : A -> B) (st : state W)
      (e : exception) (st' : state W) :
  (x <- m ;; ret (f x)) st = (Raise e, st') -> m st = (Raise e, st').
Proof.
  unfold bind. destruct (m st) as [[a | e0] st0]; cbn; [discriminate |].
  intros H. now inversion H.
Qed.

Lemma field_map_reads (r : route) :
  forallb is_read (map snd (field_map r)) = true.
Proof. destruct r; reflexivity. Qed.

Lemma field_map_length (r : route) :
  (List.length (field_map r) <= 10)%nat.
Proof. destruct r; cbn; lia. Qed.

Lemma functions_writes_writes (func : Functions) :
  forallb is_write (functions_writes func) = true.
Proof.
  destruct func as [[a |] [b |] [c |] [d |] [e |]]; reflexivity.
Qed.

Lemma functions_writes_length (func : Functions) :
  (List.length (functions_writes func) <= 5)%nat.
Proof.
  destruct func as [[a |] [b |] [c |] [d |] [e |]]; cbn; lia.
Qed.

(** X1: every GET handler whose reads are all served returns its fields in
    order, each holding the value its read returned, after making exactly
    the reads of its register map, in order. *)
Theorem get_handler_returns_register_map :
  forall r w vs w' log,
    served instrument (map snd (field_map r)) w = Some (vs, w') ->
    app_get instrument r (St w log)
    = (Return (combine (map fst (field_map r)) vs),
       St w' (log ++ map snd (field_map r))).
Proof.
  intros r w vs w' log H.
  rewrite app_get_exchanges. unfold bind.
  now rewrite (exchanges_served W instrument _ _ _ _ log H).
Qed.

(** X2: an exception of the instrument that is not a ModbusException (a
    ValueError for a refused argument, say) is not caught by any helper: the
    helper raises that very exception, not an HTTPException, after its one
    call. *)
Theorem helpers_pass_other_exceptions :
  (forall address,
      passes_exception instrument (read_register instrument address None)
                       (Instrument_read_register address))
  /\ (forall address n,
         n <> 1 ->
         passes_exception instrument
                          (read_register instrument address (Some n))
                          (Instrument_read_long address n))
  /\ (forall address length,
         passes_exception instrument (read_string instrument address length)
                          (Instrument_read_string address length))
  /\ (forall address,
         passes_exception instrument (read_float instrument address)
                          (Instrument_read_float address))
  /\ (forall address v,
         passes_exception instrument (write_register instrument address v)
                          (Instrument_write_register address v))
  /\ (forall address x,
         passes_exception instrument (write_float instrument address x)
                          (Instrument_write_float address x)).
Proof.
  repeat split; intros; intros e w w' log He Hc.
  - rewrite read_register_exchange.
    exact (exchange_passes_exception _ e w w' log He Hc).
  - rewrite read_register_exchange.
    destruct (Z.eqb_spec n 1) as [-> | _]; [contradiction |].
    exact (exchange_passes_exception _ e w w' log He Hc).
  - rewrite read_string_exchange.
    exact (exchange_passes_exception _ e w w' log He Hc).
  - rewrite read_float_exchange.
    exact (exchange_passes_exception _ e w w' log He Hc).
  - rewrite write_register_exchange.
    exact (write_passes_exception _ e w w' log He Hc).
  - rewrite write_float_exchange.
    exact (write_passes_exception _ e w w' log He Hc).
Qed.

(** X3: when the instrument call returns, a read helper returns the
    instrument's value as it is, and a write helper returns None whatever
    the instrument returned; each has made its one call. *)
Theorem helpers_return_instrument_value :
  (forall address,
      returns_of instrument (fun v => v)
                 (read_register instrument address None)
                 (Instrument_read_register address))
  /\ (forall address n,
         n <> 1 ->
         returns_of instrument (fun v => v)
                    (read_register instrument address (Some n))
                    (Instrument_read_long address n))
  /\ (forall address length,
         returns_of instrument (fun v => v)
                    (read_string instrument address length)
                    (Instrument_read_string address length))
  /\ (forall address,
         returns_of instrument (fun v => v)
                    (read_float instrument address)
                    (Instrument_read_float address))
  /\ (forall address v,
         returns_of instrument (fun _ => tt)
                    (write_register instrument address v)
                    (Instrument_write_register address v))
  /\ (forall address x,
         returns_of instrument (fun _ => tt)
                    (write_float instrument address x)
                    (Instrument_write_float address x)).
Proof.
  repeat split; intros; intros v' w w' log Hc.
  - rewrite read_register_exchange.
    exact (exchange_returns _ v' w w' log Hc).
  - rewrite read_register_exchange.
    destruct (Z.eqb_spec n 1) as [-> | _]; [contradiction |].
    exact (exchange_returns _ v' w w' log Hc).
  - rewrite read_string_exchange.
    exact (exchange_returns _ v' w w' log Hc).
  - rewrite read_float_exchange.
    exact (exchange_returns _ v' w w' log Hc).
  - rewrite write_register_exchange.
    exact (write_returns _ v' w w' log Hc).
  - rewrite write_float_exchange.
    exact (write_returns _ v' w w' log Hc).
Qed.

(** X4: no handler lets a ModbusException out: whatever the instrument does,
    an exception raised by a GET handler, by set_configuration or by
    set_functions is not a ModbusException. *)
Theorem handlers_never_raise_modbus_exception :
  (forall r st e st',
      app_get instrument r st = (Raise e, st') ->
      is_ModbusException e = false)
  /\ (forall config st e st',
         set_configuration instrument config st = (Raise e, st') ->
         is_ModbusException e = false)
  /\ (forall func st e st',
         set_functions instrument func st = (Raise e, st') ->
         is_ModbusException e = false).
Proof.
  split; [| split].
  - intros r st e st' H. rewrite app_get_exchanges in H.
    apply bind_ret_raise in H.
    exact (exchanges_raise_not_modbus _ _ _ _ H).
  - intros config st e st' H. rewrite set_configuration_exchanges in H.
    apply (bind_ret_raise _ (fun _ => [("status", VStr "Configuration updated")]))
      in H.
    exact (exchanges_raise_not_modbus _ _ _ _ H).
  - intros func st e st' H. rewrite set_functions_exchanges in H.
    apply (bind_ret_raise _ (fun _ => [("status", VStr "Functions updated")]))
      in H.
    exact (exchanges_raise_not_modbus _ _ _ _ H).
Qed.

(** X5: whatever the instrument does, the calls a GET handler makes are an
    initial part of the reads of its register map: all of them are reads,
    none is a write, and there are at most ten. *)
Theorem get_handlers_only_read :
  forall r st,
    exists done rest,
      map snd (field_map r) = done ++ rest
      /\ issued (snd (app_get instrument r st)) = issued st ++ done
      /\ forallb is_read done = true
      /\ (List.length done <= 10)%nat.
Proof.
  intros r st.
  destruct (exchanges_prefix (map snd (field_map r)) st)
    as (done & rest & Hm & Hi).
  exists done, rest. split; [exact Hm |]. split.
  - rewrite app_get_exchanges, bind_ret_state. exact Hi.
  - pose proof (field_map_reads r) as Hr.
    pose proof (field_map_length r) as Hl.
    rewrite <- (length_map snd), Hm in Hl.
    rewrite Hm, forallb_app in Hr. apply andb_true_iff in Hr.
    rewrite length_app in Hl. split; [tauto | lia].
Qed.

(** X6: whatever the instrument does, set_functions makes at most five calls
    and set_configuration at most one, and all of them are writes: a POST
    handler never reads the device. *)
Theorem post_handlers_only_write :
  (forall func st,
      exists done,
        issued (snd (set_functions instrument func st)) = issued st ++ done
        /\ forallb is_write done = true
        /\ (List.length done <= 5)%nat)
  /\ (forall config st,
         exists done,
           issued (snd (set_configuration instrument config st))
           = issued st ++ done
           /\ forallb is_write done = true
           /\ (List.length done <= 1)%nat).
Proof.
  split.
  - intros func st.
    destruct (exchanges_prefix (functions_writes func) st)
      as (done & rest & Hm & Hi).
    exists done. split.
    + rewrite set_functions_exchanges.
      rewrite (bind_ret_state _ (fun _ => [("status", VStr "Functions updated")])).
      exact Hi.
    + pose proof (functions_writes_writes func) as Hw.
      pose proof (functions_writes_length func) as Hl.
      rewrite Hm in Hl. rewrite Hm, forallb_app in Hw.
      apply andb_true_iff in Hw. rewrite length_app in Hl.
      split; [tauto | lia].
  - intros config st.
    destruct (exchanges_prefix (configuration_writes config) st)
      as (done & rest & Hm & Hi).
    exists done. split.
    + rewrite set_configuration_exchanges.
      rewrite (bind_ret_state
                 _ (fun _ => [("status", VStr "Configuration updated")])).
      exact Hi.
    + assert (Hw : forallb is_write (configuration_writes config) = true)
        by (destruct config as [[x |]]; reflexivity).
      assert (Hl : (List.length (configuration_writes config) <= 1)%nat)
        by (destruct config as [[x |]]; cbn; lia).
      rewrite Hm in Hl. rewrite Hm, forallb_app in Hw.
      apply andb_true_iff in Hw. rewrite length_app in Hl.
      split; [tauto | lia].
Qed.

(** X7: when the calls before some call of a handler are served and that
    call raises an exception that is not a ModbusException, a GET handler
    and set_functions raise that very exception (no HTTPException is made
    of it) and stop there: the calls made are those up to the failed one. *)
Theorem handlers_pass_other_exceptions :
  (forall r pre name c post w vs w1 e w2 log,
      field_map r = pre ++ (name, c) :: post ->
      served instrument (map snd pre) w = Some (vs, w1) ->
      instrument c w1 = (Raise e, w2) ->
      is_ModbusException e = false ->
      app_get instrument r (St w log)
      = (Raise e, St w2 (log ++ map snd pre ++ [c])))
  /\ (forall func pre c post w vs w1 e w2 log,
         functions_writes func = pre ++ c :: post ->
         served instrument pre w = Some (vs, w1) ->
         instrument c w1 = (Raise e, w2) ->
         is_ModbusException e = false ->
         set_functions instrument func (St w log)
         = (Raise e, St w2 (log ++ pre ++ [c]))).
Proof.
  split.
  - intros r pre name c post w vs w1 e w2 log Hr Hpre Hc He.
    rewrite app_get_exchanges, Hr, map_app. cbn [map snd]. unfold bind.
    rewrite (exchanges_fault W instrument _ c _ _ _ _ _ _ log Hpre Hc).
    now rewrite surfaced_other.
  - intros func pre c post w vs w1 e w2 log Hf Hpre Hc He.
    rewrite set_functions_exchanges, Hf. unfold bind.
    rewrite (exchanges_fault W instrument _ c _ _ _ _ _ _ log Hpre Hc).
    now rewrite surfaced_other.
Qed.

(** X8: when its one write raises, set_configuration returns no
    acknowledgment: it raises HTTPException(500, the message) for a
    ModbusException and the exception itself for any other, after the one
    call. *)
Theorem set_configuration_write_fails :
  forall x e w w' log,
    instrument (Instrument_write_float 0x0302 x) w = (Raise e, w') ->
    set_configuration instrument (Build_Configuration (Some x)) (St w log)
    = (if is_ModbusException e then Raise (HTTPException 500 (str e))
       else Raise e,
       St w' (log ++ [Instrument_write_float 0x0302 x])).
Proof.
  intros x e w w' log H.
  rewrite set_configuration_exchanges.
  cbn [configuration_writes external_charging_current_limitation present].
  unfold bind.
  pose proof (exchanges_fault W instrument [] _ [] w [] w e w' log eq_refl H)
    as E.
  cbn [app] in E. rewrite E.
  cbn. destruct (is_ModbusException e); reflexivity.
Qed.

(** X9: the fields of a response of a GET handler are those of its register
    map, one per read and no name twice, so that no value read is dropped
    from the response dict. *)
Theorem get_response_fields_distinct :
  forall r st body st',
    app_get instrument r st = (Return body, st') ->
    NoDup (map fst body)
    /\ List.length body = List.length (field_map r).
Proof.
  intros r st body st' H.
  rewrite app_get_exchanges in H. unfold bind in H.
  pose proof (exchanges_shape W instrument (map snd (field_map r)) st) as S.
  destruct (exchanges instrument (map snd (field_map r)) st)
    as [[vs | e] st1]; [| discriminate].
  destruct S as [Hl _]. inversion H; subst. rewrite length_map in Hl.
  assert (Hk : map fst (combine (map fst (field_map r)) vs)
               = map fst (field_map r)).
  { clear - Hl. revert vs Hl. generalize (field_map r) as fields.
    induction fields as [| [k c] fields IH]; intros [| v vs] Hl;
      try discriminate; [reflexivity |].
    cbn. f_equal. apply IH. now inversion Hl. }
  split.
  - rewrite Hk. clear.
    destruct r; cbn;
      repeat (constructor;
              [ cbn; intros F;
                repeat (destruct F as [F | F]; [discriminate F |]);
                exact F | ]);
      constructor.
  - rewrite length_combine, length_map, Hl. apply Nat.min_id.
Qed.

Lemma exchanges_return_served (cs : list call) :
  forall w log vs st',
    exchanges instrument cs (St w log) = (Return vs, st') ->
    served instrument cs w = Some (vs, world st').
Proof.
  induction cs as [| c cs IH]; intros w log vs st' H.
  - cbn in H. inversion H; subst. reflexivity.
  - cbn [exchanges] in H. unfold bind at 1 in H. unfold exchange at 1 in H.
    cbn [world issued] in H. cbn [served].
    destruct (instrument c w) as [[v | e] w1]; cbn [surfaced] in H.
    + unfold bind in H.
      destruct (exchanges instrument cs (St w1 (log ++ [c])))
        as [[vs1 | e1] st1] eqn:E; [| discriminate].
      cbn in H. inversion H; subst.
      now rewrite (IH _ _ _ _ E).
    + destruct (is_ModbusException e); discriminate.
Qed.

(** X12: a handler returns exactly when the instrument served every one of
    its calls: a GET handler returns a response if and only if all the reads
    of its register map returned, and set_functions returns its
    acknowledgment if and only if the writes of all present fields returned;
    no exception of a call is swallowed. *)
Theorem handlers_return_iff_served :
  (forall r w log body st',
      app_get instrument r (St w log) = (Return body, st')
      <-> exists vs,
            served instrument (map snd (field_map r)) w
            = Some (vs, world st')
            /\ body = combine (map fst (field_map r)) vs
            /\ issued st' = log ++ map snd (field_map r))
  /\ (forall func w log body st',
         set_functions instrument func (St w log) = (Return body, st')
         <-> exists vs,
               served instrument (functions_writes func) w
               = Some (vs, world st')
               /\ body = [("status", VStr "Functions updated")]
               /\ issued st' = log ++ functions_writes func).
Proof.
  split.
  - intros r w log body st'. split.
    + intros H. rewrite app_get_exchanges in H. unfold bind in H.
      destruct (exchanges instrument (map snd (field_map r)) (St w log))
        as [[vs | e] st1] eqn:E; [| discriminate].
      destruct st1 as [w1 log1].
      pose proof (exchanges_return_served _ _ _ _ _ E) as Hs.
      cbn [world] in Hs.
      pose proof (exchanges_served W instrument _ _ _ _ log Hs) as E'.
      rewrite E in E'. inversion E'; subst log1. inversion H; subst.
      exists vs. cbn. repeat split. exact Hs.
    + intros (vs & Hs & Hb & Hi).
      destruct st' as [w' log']. cbn in *. subst.
      rewrite app_get_exchanges. unfold bind.
      now rewrite (exchanges_served W instrument _ _ _ _ log Hs).
  - intros func w log body st'. split.
    + intros H. rewrite set_functions_exchanges in H. unfold bind in H.
      destruct (exchanges instrument (functions_writes func) (St w log))
        as [[vs | e] st1] eqn:E; [| discriminate].
      destruct st1 as [w1 log1].
      pose proof (exchanges_return_served _ _ _ _ _ E) as Hs.
      cbn [world] in Hs.
      pose proof (exchanges_served W instrument _ _ _ _ log Hs) as E'.
      rewrite E in E'. inversion E'; subst log1. inversion H; subst.
      exists vs. cbn. repeat split. exact Hs.
    + intros (vs & Hs & Hb & Hi).
      destruct st' as [w' log']. cbn in *. subst.
      rewrite set_functions_exchanges. unfold bind.
      now rewrite (exchanges_served W instrument _ _ _ _ log Hs).
Qed.

End Further.

(** ** Writing, then reading back *)



(** ** The further properties on device doubles *)

(** X1 on a device holding the version scenario: get_version_info returns
    the five fields, the two strings read at 0x0001 and 0x0009. *)
Lemma get_handler_returns_register_map_witness :
  served memory_device (map snd (field_map GET_version_info))
         version_registers
  = Some ([ VInt 0; VStr "5.22"; VStr "1384202.10095"; VInt 17; VInt 18 ],
          version_registers)
  /\ app_get memory_device GET_version_info (St version_registers [])
     = (Return [ ("layout_version", VInt 0);
                 ("firmware_version", VStr "5.22");
                 ("serial_number", VStr "1384202.10095");
                 ("hw_version", VInt 17);
                 ("product_id", VInt 18) ],
        St version_registers
           [ Instrument_read_register 0x0000;
             Instrument_read_string 0x0001 8;
             Instrument_read_string 0x0009 8;
             Instrument_read_register 0x0011;
             Instrument_read_register 0x0012 ]).
Proof.
  split; [reflexivity |].
  apply (get_handler_returns_register_map
           (Z -> value) memory_device GET_version_info version_registers
           [ VInt 0; VStr "5.22"; VStr "1384202.10095"; VInt 17; VInt 18 ]
           version_registers []).
  reflexivity.
Defined.

(** X2 on a double whose first exchange raises a ValueError: write_register
    raises the ValueError. *)
Lemma helpers_pass_other_exceptions_witness :
  write_register (double status_registers (Some 0%nat) value_error)
                 0x0D03 70000 (St 0%nat [])
  = (Raise (OtherException "ValueError" "The input value is too large"),
     St 1%nat [Instrument_write_register 0x0D03 70000]).
Proof.
  pose proof (helpers_pass_other_exceptions
                nat (double status_registers (Some 0%nat) value_error))
    as (_ & _ & _ & _ & Hw & _).
  apply (Hw 0x0D03 70000 value_error); reflexivity.
Defined.

(** X3 on a device holding the version scenario: read_string hands back the
    string of the device, write_register returns None. *)
Lemma helpers_return_instrument_value_witness :
  read_string memory_device 0x0001 8 (St version_registers [])
  = (Return (VStr "5.22"),
     St version_registers [Instrument_read_string 0x0001 8])
  /\ fst (write_register memory_device 0x0D06 1 (St version_registers []))
     = Return tt.
Proof.
  pose proof (helpers_return_instrument_value (Z -> value) memory_device)
    as (_ & _ & Hs & _ & Hw & _).
  split.
  - apply (Hs 0x0001 8 (VStr "5.22")). reflexivity.
  - rewrite (Hw 0x0D06 1 VNone version_registers
                (fun a => if a =? 0x0D06 then VInt 1 else version_registers a)
                []);
      reflexivity.
Defined.

(** X4 on a double whose first exchange times out: what get_diagnostic
    raises is an HTTPException, not the ModbusException. *)
Lemma handlers_never_raise_modbus_exception_witness :
  app_get (double status_registers (Some 0%nat) no_answer) GET_diagnostic
          (St 0%nat [])
  = (Raise (HTTPException
              500 "No communication with the instrument (no answer)"),
     St 1%nat [Instrument_read_long 0x0E00 2])
  /\ is_ModbusException
       (HTTPException 500 "No communication with the instrument (no answer)")
     = false.
Proof.
  split; [reflexivity |].
  apply (proj1 (handlers_never_raise_modbus_exception
                  nat (double status_registers (Some 0%nat) no_answer))
               GET_diagnostic (St 0%nat [])
               (HTTPException
                  500 "No communication with the instrument (no answer)")
               (St 1%nat [Instrument_read_long 0x0E00 2])).
  reflexivity.
Defined.

(** X7 on a double whose second exchange raises a ValueError: with
    solar_charge_mode and lockmode present, set_functions writes the first,
    raises the ValueError at the second. *)
Lemma handlers_pass_other_exceptions_witness :
  served (double status_registers (Some 1%nat) value_error)
         [Instrument_write_register 0x0D03 2] 0%nat
  = Some ([VNone], 1%nat)
  /\ set_functions (double status_registers (Some 1%nat) value_error)
                   (Build_Functions None (Some 2) None None (Some 70000))
                   (St 0%nat [])
     = (Raise (OtherException "ValueError" "The input value is too large"),
        St 2%nat [ Instrument_write_register 0x0D03 2;
                   Instrument_write_register 0x0D06 70000 ]).
Proof.
  split; [reflexivity |].
  apply (proj2 (handlers_pass_other_exceptions
                  nat (double status_registers (Some 1%nat) value_error))
               (Build_Functions None (Some 2) None None (Some 70000))
               [Instrument_write_register 0x0D03 2]
               (Instrument_write_register 0x0D06 70000) []
               0%nat [VNone] 1%nat value_error 2%nat []);
    reflexivity.
Defined.

(** X8 on a double whose first exchange times out: set_configuration raises
    HTTPException(500) after its one write. *)
Lemma set_configuration_write_fails_witness :
  set_configuration (double status_registers (Some 0%nat) no_answer)
                    (Build_Configuration (Some 16.0%float)) (St 0%nat [])
  = (Raise (HTTPException
              500 "No communication with the instrument (no answer)"),
     St 1%nat [Instrument_write_float 0x0302 16.0%float]).
Proof.
  apply (set_configuration_write_fails
           nat (double status_registers (Some 0%nat) no_answer)
           16.0%float no_answer 0%nat 1%nat []).
  reflexivity.
Defined.

(** X9 on the double of the status scenario: the response of get_status has
    five fields with five different names. *)
Lemma get_response_fields_distinct_witness :
  NoDup [ "evse_state"; "external_charging_release_state";
          "external_downgrading_state"; "phase_rotation"; "bootup_token" ]
  /\ List.length
       [ ("evse_state", VInt 3);
         ("external_charging_release_state", VInt 1);
         ("external_downgrading_state", VInt 0);
         ("phase_rotation", VInt 1);
         ("bootup_token", VInt 123456) ]
     = 5%nat.
Proof.
  apply (get_response_fields_distinct
           nat (double status_registers None no_answer) GET_status
           (St 0%nat [])
           [ ("evse_state", VInt 3);
             ("external_charging_release_state", VInt 1);
             ("external_downgrading_state", VInt 0);
             ("phase_rotation", VInt 1);
             ("bootup_token", VInt 123456) ]
           (St 5%nat [ Instrument_read_register 0x0100;
                       Instrument_read_register 0x0101;
                       Instrument_read_register 0x0102;
                       Instrument_read_register 0x0103;
                       Instrument_read_long 0x0104 2 ])).
  reflexivity.
Defined.
